(** * Retry strategies of procrastinate ([procrastinate/retry.py])

    A shallow embedding of [BaseRetryStrategy], [RetryStrategy] and
    [get_retry_strategy], over a model of the Python values the module
    computes with: unbounded integers, binary64 floats and the exceptions
    their arithmetic raises. *)

From Stdlib Require Import ZArith Bool Lia.
From Stdlib Require Import SpecFloat.
From stdpp Require Import base option gmap.

Open Scope Z_scope.

(** ** Exceptions and results

    A Python call either returns a value or raises.  Only the exceptions
    the module can meet are listed. *)

Inductive exn : Set :=
| OverflowError
| ZeroDivisionError
| NotImplementedError.

Inductive result (A : Type) : Type :=
| Ok (a : A)
| Raise (e : exn).

Arguments Ok {A} a.
Arguments Raise {A} e.

(** Sequencing stops at the first exception. *)
#[global] Instance result_ret : MRet result := @Ok.

#[global] Instance result_bind : MBind result := fun A B k m =>
  match m with
  | Ok a => k a
  | Raise e => Raise e
  end.

(** ** Python numbers

    The wait fields are annotated [float], but attrs neither converts nor
    checks: [RetryStrategy(wait=3)] stores the int [3].  A number is
    therefore an int or a float, and arithmetic follows Python's coercion:
    int with int stays an int, anything with a float is computed in
    binary64. *)

Module PyNum.

(** binary64: 53 bits of precision, infinities at exponent 1024 *)
Definition prec : Z := 53.
Definition emax : Z := 1024.

Abbreviation float := spec_float.

Inductive number : Type :=
| PyInt (z : Z)
| PyFloat (x : float).

Definition float_add : float -> float -> float := SFadd prec emax.
Definition float_mul : float -> float -> float := SFmul prec emax.

(** The 53 most significant bits of a positive integer, rounded half to
    even, with the exponent they carry: [p] is about [m * 2 ^ e]. *)
Definition round_to_53 (p : positive) : Z * Z :=
  let d := Z.log2 (Z.pos p) + 1 in
  if d <=? prec then (Z.pos p * 2 ^ (prec - d), d - prec)
  else
    let sh := d - prec in
    let q := Z.pos p / 2 ^ sh in
    let r := Z.pos p mod 2 ^ sh in
    let half := 2 ^ (sh - 1) in
    let q' := if (half <? r) || ((r =? half) && Z.odd q) then q + 1 else q in
    if q' =? 2 ^ prec then (2 ^ (prec - 1), sh + 1) else (q', sh).

(** [float(z)] for an int [z]: the nearest double, ties to even;
    "OverflowError: int too large to convert to float" past the range. *)
Definition float_of_int (z : Z) : result float :=
  match z with
  | Z0 => Ok (S754_zero false)
  | Zpos p =>
      let '(m, e) := round_to_53 p in
      if e <=? emax - prec then Ok (S754_finite false (Z.to_pos m) e)
      else Raise OverflowError
  | Zneg p =>
      let '(m, e) := round_to_53 p in
      if e <=? emax - prec then Ok (S754_finite true (Z.to_pos m) e)
      else Raise OverflowError
  end.

(** The operand of a float operation, as a double. *)
Definition to_double (v : number) : result float :=
  match v with
  | PyInt z => float_of_int z
  | PyFloat x => Ok x
  end.

(** [a + b] *)
Definition py_add (a b : number) : result number :=
  match a, b with
  | PyInt x, PyInt y => Ok (PyInt (x + y))
  | _, _ =>
      x ← to_double a;
      y ← to_double b;
      Ok (PyFloat (float_add x y))
  end.

(** [a * b] *)
Definition py_mul (a b : number) : result number :=
  match a, b with
  | PyInt x, PyInt y => Ok (PyInt (x * y))
  | _, _ =>
      x ← to_double a;
      y ← to_double b;
      Ok (PyFloat (float_mul x y))
  end.

Definition float_one : float := S754_finite false (Z.to_pos (2 ^ 52)) (-52).

Definition is_zero (x : float) : bool :=
  match x with S754_zero _ => true | _ => false end.

Definition is_infinite (x : float) : bool :=
  match x with S754_infinity _ => true | _ => false end.

Definition sign_bit (x : float) : bool :=
  match x with
  | S754_zero s | S754_infinity s | S754_finite s _ _ => s
  | S754_nan => false
  end.

(** The integer a double with an integral value stands for. *)
Definition integral_value (x : float) : Z :=
  match x with
  | S754_finite s m e =>
      let a := if 0 <=? e then Z.pos m * 2 ^ e else Z.pos m / 2 ^ (- e) in
      if s then - a else a
  | _ => 0
  end.

(** The platform's [pow], on the arguments [float_pow] hands to it from an
    int exponent: a positive finite base and a non-zero integral exponent.
    It is modelled by the correctly rounded power, infinite on overflow. *)
Definition c_pow (x y : float) : float :=
  match x with
  | S754_finite _ m e =>
      let n := Z.abs (integral_value y) in
      if sign_bit y
      then SFdiv prec emax float_one
             (S754_finite false (Z.to_pos (Z.pos m ^ n)) (e * n))
      else binary_normalize prec emax (Z.pos m ^ n) (e * n) false
  | _ => S754_nan
  end.

(** [iv ** w] for a float [iv] and an int [w], case by case as CPython's
    [float_pow] sorts them out before it calls the platform's [pow].  The
    exponent comes from an int, so as a double it is finite and integral:
    the cases of an infinite or NaN exponent do not arise. *)
Definition float_pow (iv : float) (w : Z) : result float :=
  iw ← float_of_int w;
  if is_zero iw then Ok float_one           (* v**0 is 1, even 0**0 *)
  else
    let odd := Z.odd (integral_value iw) in
    match iv with
    | S754_nan => Ok iv
    | S754_infinity s =>
        if sign_bit iw
        then Ok (if odd then S754_zero s else S754_zero false)
        else Ok (if odd then iv else S754_infinity false)
    | S754_zero _ =>
        if sign_bit iw then Raise ZeroDivisionError
        else Ok (if odd then iv else S754_zero false)
    | S754_finite s _ _ =>
        let negate_result := s && odd in
        let iv := SFabs iv in
        if SFeqb iv float_one
        then Ok (if negate_result then SFopp float_one else float_one)
        else
          let ix := c_pow iv iw in
          if is_infinite ix then Raise OverflowError
          else Ok (if negate_result then SFopp ix else ix)
    end.

(** [a ** w] for an int exponent [w]: an int power of an int is an int
    unless the exponent is negative. *)
Definition py_pow (a : number) (w : Z) : result number :=
  match a with
  | PyInt x =>
      if 0 <=? w then Ok (PyInt (x ^ w))
      else
        iv ← float_of_int x;
        r ← float_pow iv w;
        Ok (PyFloat r)
  | PyFloat iv =>
      r ← float_pow iv w;
      Ok (PyFloat r)
  end.

(** Literals *)
Definition float_lit (z : Z) : float := binary_normalize prec emax z 0 false.

End PyNum.

Import PyNum.

(** ** [BaseRetryStrategy]

    A strategy is any class that implements [get_schedule_in];
    [get_retry_exception] is inherited from the base class. *)

Class BaseRetryStrategy (S : Type) : Type := {
  get_schedule_in : S -> Z -> result (option number)
}.

(** The base class itself leaves [get_schedule_in] unimplemented. *)
Inductive base_object : Set := BaseObject.

#[global] Instance base_strategy : BaseRetryStrategy base_object := {|
  get_schedule_in := fun _ _ => Raise NotImplementedError
|}.

Section Clock.

(** pendulum's timestamps, and [t.add(seconds=x)] on them: what the module
    takes from the library. *)
Variable DateTime : Type.
Variable add_seconds : DateTime -> number -> result DateTime.

(** Modelled from the spec: [exceptions.JobRetry] is declared in
    [procrastinate/exceptions.py]; the decision it stands for carries the
    absolute timestamp it was built with. *)
Record JobRetry : Type := { scheduled_at : DateTime }.

(** [now] is what [pendulum.now("UTC")] reads at the call. *)
Definition get_retry_exception {S : Type} `{BaseRetryStrategy S}
    (self : S) (now : DateTime) (attempts : Z) : result (option JobRetry) :=
  schedule_in ← get_schedule_in self attempts;
  match schedule_in with
  | None => Ok None
  | Some seconds =>
      schedule_at ← add_seconds now seconds;
      Ok (Some {| scheduled_at := schedule_at |})
  end.

End Clock.

Arguments scheduled_at {DateTime} _.
Arguments get_retry_exception {DateTime} add_seconds {S _} self now attempts.

(** ** [RetryStrategy] *)

Record RetryStrategy : Type := {
  max_attempts : option Z;
  wait : number;
  linear_wait : number;
  exponential_wait : number
}.

(** [RetryStrategy()]: every field at its default. *)
Definition RetryStrategy_default : RetryStrategy := {|
  max_attempts := None;
  wait := PyFloat (float_lit 0);
  linear_wait := PyFloat (float_lit 0);
  exponential_wait := PyFloat (float_lit 0)
|}.

(** Keyword arguments of the constructor, over the defaults. *)
Definition with_max_attempts (m : option Z) (s : RetryStrategy) : RetryStrategy :=
  {| max_attempts := m; wait := wait s; linear_wait := linear_wait s;
     exponential_wait := exponential_wait s |}.

Definition with_wait (w : number) (s : RetryStrategy) : RetryStrategy :=
  {| max_attempts := max_attempts s; wait := w; linear_wait := linear_wait s;
     exponential_wait := exponential_wait s |}.

Definition with_exponential_wait (w : number) (s : RetryStrategy) : RetryStrategy :=
  {| max_attempts := max_attempts s; wait := wait s;
     linear_wait := linear_wait s; exponential_wait := w |}.

Definition with_linear_wait (w : number) (s : RetryStrategy) : RetryStrategy :=
  {| max_attempts := max_attempts s; wait := wait s;
     linear_wait := w; exponential_wait := exponential_wait s |}.

(** [self.max_attempts and attempts >= self.max_attempts]: [None] and [0]
    are falsy. *)
Definition limit_reached (self : RetryStrategy) (attempts : Z) : bool :=
  match max_attempts self with
  | None => false
  | Some m => negb (m =? 0) && (m <=? attempts)
  end.

Definition RetryStrategy_get_schedule_in (self : RetryStrategy) (attempts : Z)
  : result (option number) :=
  if limit_reached self attempts then Ok None
  else
    let wait0 := wait self in
    t ← py_mul (linear_wait self) (PyInt attempts);
    wait1 ← py_add wait0 t;
    p ← py_pow (exponential_wait self) attempts;
    wait2 ← py_add wait1 p;
    Ok (Some wait2).

#[global] Instance retry_strategy : BaseRetryStrategy RetryStrategy := {|
  get_schedule_in := RetryStrategy_get_schedule_in
|}.

(** The formula of the class docstring, as one Python expression:
    [wait + linear_wait * attempts + exponential_wait ** attempts]. *)
Definition total_wait (self : RetryStrategy) (attempts : Z) : result number :=
  t ← py_mul (linear_wait self) (PyInt attempts);
  u ← py_add (wait self) t;
  p ← py_pow (exponential_wait self) attempts;
  py_add u p.

(** No backoff configured: the three wait terms at their default. *)
Definition no_wait (self : RetryStrategy) : Prop :=
  wait self = PyFloat (float_lit 0) /\
  linear_wait self = PyFloat (float_lit 0) /\
  exponential_wait self = PyFloat (float_lit 0).

(** ** Instances and [get_retry_strategy]

    Strategies are objects: a reference names one in the store, and two
    references are the same instance when they are equal. *)

Abbreviation loc := positive.
Abbreviation heap := (gmap loc RetryStrategy).

(** A constructor call makes a new object. *)
Definition alloc (o : RetryStrategy) (h : heap) : loc * heap :=
  let l := fresh (dom h) in (l, <[l := o]> h).

(** [RetryValue = Union[bool, int, RetryStrategy]] *)
Inductive RetryValue : Type :=
| RetryBool (b : bool)
| RetryInt (n : Z)
| RetryObject (l : loc).

(** Truth value: a strategy object defines neither [__bool__] nor
    [__len__], so it is true. *)
Definition truthy (retry : RetryValue) : bool :=
  match retry with
  | RetryBool b => b
  | RetryInt n => negb (n =? 0)
  | RetryObject _ => true
  end.

(** [retry is True] *)
Definition is_True (retry : RetryValue) : bool :=
  match retry with
  | RetryBool true => true
  | _ => false
  end.

Definition get_retry_strategy (retry : RetryValue) (h : heap)
  : option loc * heap :=
  if negb (truthy retry) then (None, h)
  else if is_True retry then
    let '(l, h') := alloc RetryStrategy_default h in (Some l, h')
  else
    match retry with
    | RetryBool b =>               (* a bool is an int *)
        let '(l, h') :=
          alloc (with_max_attempts (Some (Z.b2z b)) RetryStrategy_default) h in
        (Some l, h')
    | RetryInt n =>
        let '(l, h') :=
          alloc (with_max_attempts (Some n) RetryStrategy_default) h in
        (Some l, h')
    | RetryObject l => (Some l, h)
    end.

(** A method call through a reference reads the object it names. *)
Definition call_get_schedule_in (h : heap) (self : loc) (attempts : Z)
  : option (result (option number) * heap) :=
  o ← h !! self;
  Some (RetryStrategy_get_schedule_in o attempts, h).

(** * Properties *)

(** ** Sequencing *)

Lemma bind_Ok {A B : Type} (a : A) (k : A -> result B) :
  (Ok a ≫= k) = k a.
Proof. reflexivity. Qed.

Lemma bind_Raise {A B : Type} (e : exn) (k : A -> result B) :
  (Raise e ≫= k) = Raise e.
Proof. reflexivity. Qed.

Lemma bind_Ok_inv {A B : Type} (m : result A) (k : A -> result B) (b : B) :
  (m ≫= k) = Ok b -> exists a, m = Ok a /\ k a = Ok b.
Proof. destruct m as [a|e]; [exists a; split; [reflexivity|assumption] | discriminate]. Qed.

Lemma bind_Raise_inv {A B : Type} (m : result A) (k : A -> result B) (e : exn) :
  (m ≫= k) = Raise e -> m = Raise e \/ exists a, m = Ok a /\ k a = Raise e.
Proof.
  destruct m as [a|e']; intros H.
  - right. exists a. split; [reflexivity | exact H].
  - left. injection H as ->. reflexivity.
Qed.

(** ** Conversion of ints to floats *)

Lemma round_to_53_exponent (p : positive) (m e : Z) :
  Z.pos p < 2 ^ 1023 -> round_to_53 p = (m, e) -> e <= emax - prec.
Proof.
  intros Hp. unfold round_to_53, emax, prec.
  assert (Hd : Z.log2 (Z.pos p) < 1023) by (apply Z.log2_lt_pow2; lia).
  pose proof (Z.log2_nonneg (Z.pos p)) as Hd0.
  generalize dependent (Z.log2 (Z.pos p)). intros l Hd Hd0.
  destruct (l + 1 <=? 53) eqn:Hsmall.
  - intros [= <- <-]. apply Z.leb_le in Hsmall. lia.
  - match goal with |- context [if ?c then _ else _] => destruct c end;
      intros [= <- <-]; lia.
Qed.

Lemma float_of_int_in_range (z : Z) :
  0 < z < 2 ^ 1023 ->
  exists m e, float_of_int z = Ok (S754_finite false m e).
Proof.
  intros [Hpos Hlt]. destruct z as [|p|p]; try lia.
  unfold float_of_int. destruct (round_to_53 p) as [m e] eqn:Hr.
  pose proof (round_to_53_exponent p m e Hlt Hr) as He.
  apply Z.leb_le in He. rewrite He. eauto.
Qed.

Lemma float_of_int_raises (z : Z) (e : exn) :
  float_of_int z = Raise e -> e = OverflowError.
Proof.
  destruct z as [|p|p]; simpl; try discriminate;
    destruct (round_to_53 p) as [m e']; destruct (e' <=? emax - prec);
    congruence.
Qed.

Lemma float_of_int_sign (z : Z) (x : float) :
  0 <= z -> float_of_int z = Ok x -> sign_bit x = false.
Proof.
  destruct z as [|p|p]; intros Hz; try lia; simpl.
  - intros [= <-]. reflexivity.
  - destruct (round_to_53 p) as [m e']. destruct (e' <=? emax - prec);
      [intros [= <-]; reflexivity | discriminate].
Qed.

(** ** Which exceptions the arithmetic can raise *)

Lemma to_double_raises (v : number) (e : exn) :
  to_double v = Raise e -> e = OverflowError.
Proof. destruct v; simpl; [apply float_of_int_raises | discriminate]. Qed.

Lemma float_op_raises (op : float -> float -> float) (a b : number) (e : exn) :
  (x ← to_double a; y ← to_double b; Ok (PyFloat (op x y))) = Raise e ->
  e = OverflowError.
Proof.
  intros H. apply bind_Raise_inv in H as [H | (x & _ & H)].
  - eapply to_double_raises, H.
  - apply bind_Raise_inv in H as [H | (y & _ & H)]; [| discriminate].
    eapply to_double_raises, H.
Qed.

Lemma py_add_raises (a b : number) (e : exn) :
  py_add a b = Raise e -> e = OverflowError.
Proof.
  destruct a, b; unfold py_add; try discriminate;
    apply (float_op_raises float_add).
Qed.

Lemma py_mul_raises (a b : number) (e : exn) :
  py_mul a b = Raise e -> e = OverflowError.
Proof.
  destruct a, b; unfold py_mul; try discriminate;
    apply (float_op_raises float_mul).
Qed.

Lemma float_pow_raises (iv : float) (w : Z) (e : exn) :
  0 <= w -> float_pow iv w = Raise e -> e = OverflowError.
Proof.
  intros Hw H. unfold float_pow in H.
  apply bind_Raise_inv in H as [H | (iw & Hiw & H)].
  - eapply float_of_int_raises, H.
  - rewrite (float_of_int_sign w iw Hw Hiw) in H.
    destruct (is_zero iw); [discriminate|].
    destruct iv as [s|s| |s m x]; try discriminate.
    cbv zeta in H.
    repeat match type of H with
           | (if ?c then _ else _) = _ => destruct c
           end; congruence.
Qed.

Lemma py_pow_raises (a : number) (w : Z) (e : exn) :
  0 <= w -> py_pow a w = Raise e -> e = OverflowError.
Proof.
  intros Hw. destruct a as [x|iv]; unfold py_pow.
  - apply Z.leb_le in Hw. rewrite Hw. discriminate.
  - intros H. apply bind_Raise_inv in H as [H | (r & _ & H)]; [| discriminate].
    eapply float_pow_raises; eassumption.
Qed.

(** ** The model on concrete values *)

(** [float_of_int] rounds as binary64 does: exact up to 2 ** 53, ties to
    even above, and out of range from 2 ** 1024 - 2 ** 970 on. *)
Example float_of_int_rounds_to_nearest_even :
  List.map float_of_int
    [0; 1; 3; -3; 2 ^ 53 + 1; 2 ^ 53 + 3; 2 ^ 54 + 2; 2 ^ 54 + 6;
     10 ^ 30; 2 ^ 1024 - 2 ^ 970 - 1]
  = List.map (fun z => Ok (float_lit z))
      [0; 1; 3; -3; 2 ^ 53; 2 ^ 53 + 4; 2 ^ 54; 2 ^ 54 + 8;
       10 ^ 30; 2 ^ 1024 - 2 ^ 971] /\
  float_of_int (2 ^ 1024 - 2 ^ 970) = Raise OverflowError /\
  float_lit (2 ^ 1024 - 2 ^ 970) = S754_infinity false.
Proof. repeat split; vm_compute; reflexivity. Qed.

(** [x ** 0] is 1.0 for every float, [0.0 ** n] is 0.0 for positive [n],
    and a power past the range raises. *)
Example float_pow_cases :
  py_pow (PyFloat (float_lit 0)) 0 = Ok (PyFloat (float_lit 1)) /\
  py_pow (PyFloat (float_lit 0)) 5 = Ok (PyFloat (float_lit 0)) /\
  py_pow (PyFloat (float_lit 3)) 4 = Ok (PyFloat (float_lit 81)) /\
  py_pow (PyFloat (float_lit 2)) 1023 = Ok (PyFloat (float_lit (2 ^ 1023))) /\
  py_pow (PyFloat (float_lit 2)) 1024 = Raise OverflowError /\
  py_pow (PyInt 2) 1024 = Ok (PyInt (2 ^ 1024)) /\
  py_pow (PyFloat (float_lit 0)) (-1) = Raise ZeroDivisionError.
Proof. repeat split; vm_compute; reflexivity. Qed.

(** The sequences of the class docstring, for attempts 0 to 4.  With
    [exponential_wait=3] the code gives the documented 1, 3, 9, 27, 81;
    with [linear_wait=3] it gives 1, 3, 6, 9, 12 where 0, 3, 6, 9, 12 is
    documented. *)
Example docstring_sequences :
  List.map
    (RetryStrategy_get_schedule_in
       (with_exponential_wait (PyInt 3) RetryStrategy_default))
    [0; 1; 2; 3; 4]
  = List.map (fun z => Ok (Some (PyFloat (float_lit z)))) [1; 3; 9; 27; 81] /\
  List.map
    (RetryStrategy_get_schedule_in
       {| max_attempts := None; wait := PyFloat (float_lit 0);
          linear_wait := PyInt 3;
          exponential_wait := PyFloat (float_lit 0) |})
    [0; 1; 2; 3; 4]
  = List.map (fun z => Ok (Some (PyFloat (float_lit z)))) [1; 3; 6; 9; 12].
Proof. split; vm_compute; reflexivity. Qed.

(** [RetryStrategy] inherits [get_retry_exception]: at the limit it gives
    [None], below it the decision for the clock reading plus the delay. *)
Example get_retry_exception_at_limit
    {DateTime : Type} (add_seconds : DateTime -> number -> result DateTime)
    (now : DateTime) :
  get_retry_exception add_seconds
    (with_max_attempts (Some 3) RetryStrategy_default) now 3 = Ok None /\
  get_retry_exception add_seconds
    (with_max_attempts (Some 3) RetryStrategy_default) now 2
  = (t ← add_seconds now (PyFloat (float_lit 0));
     Ok (Some {| scheduled_at := t |})) /\
  get_retry_exception add_seconds BaseObject now 0 = Raise NotImplementedError.
Proof. repeat split. Qed.

(** ** Delays when no wait is configured *)

Lemma zero_times_attempts (a : Z) :
  0 <= a < 2 ^ 1023 ->
  py_mul (PyFloat (float_lit 0)) (PyInt a) = Ok (PyFloat (float_lit 0)).
Proof.
  intros [H0 H1]. destruct (Z.eq_dec a 0) as [-> | Hne]; [reflexivity|].
  destruct (float_of_int_in_range a) as (m & e & Hf); [lia|].
  unfold py_mul, to_double. rewrite bind_Ok, Hf. reflexivity.
Qed.

Lemma zero_pow_attempts (a : Z) :
  0 < a < 2 ^ 1023 ->
  py_pow (PyFloat (float_lit 0)) a = Ok (PyFloat (float_lit 0)).
Proof.
  intros H. destruct (float_of_int_in_range a H) as (m & e & Hf).
  unfold py_pow, float_pow. rewrite Hf, bind_Ok.
  change (float_lit 0) with (S754_zero false).
  cbv beta iota delta [is_zero sign_bit].
  destruct (Z.odd _); reflexivity.
Qed.

Lemma pow_zero_exponent (x : float) :
  py_pow (PyFloat x) 0 = Ok (PyFloat float_one).
Proof. reflexivity. Qed.

Lemma no_wait_total (s : RetryStrategy) (a : Z) :
  no_wait s -> 0 <= a < 2 ^ 1023 ->
  total_wait s a = Ok (PyFloat (if a =? 0 then float_one else float_lit 0)).
Proof.
  intros (Hw & Hl & He) Ha. unfold total_wait. rewrite Hw, Hl, He.
  rewrite (zero_times_attempts a Ha), bind_Ok.
  destruct (Z.eqb_spec a 0) as [-> | Hne]; [reflexivity|].
  rewrite zero_pow_attempts by lia. reflexivity.
Qed.

(** ** What [get_schedule_in] computes *)

Lemma get_schedule_in_stopped (s : RetryStrategy) (a : Z) :
  limit_reached s a = true -> RetryStrategy_get_schedule_in s a = Ok None.
Proof. intros H. unfold RetryStrategy_get_schedule_in. rewrite H. reflexivity. Qed.

Lemma get_schedule_in_running (s : RetryStrategy) (a : Z) :
  limit_reached s a = false ->
  RetryStrategy_get_schedule_in s a = (d ← total_wait s a; Ok (Some d)).
Proof.
  intros H. unfold RetryStrategy_get_schedule_in, total_wait. rewrite H.
  destruct (py_mul (linear_wait s) (PyInt a)) as [t|e]; [|reflexivity].
  rewrite !bind_Ok.
  destruct (py_add (wait s) t) as [u|e]; [|reflexivity].
  rewrite !bind_Ok.
  destruct (py_pow (exponential_wait s) a) as [p|e]; reflexivity.
Qed.

Lemma total_wait_raises (s : RetryStrategy) (a : Z) (e : exn) :
  0 <= a -> total_wait s a = Raise e -> e = OverflowError.
Proof.
  intros Ha H. unfold total_wait in H.
  apply bind_Raise_inv in H as [H | (t & _ & H)];
    [eapply py_mul_raises, H|].
  apply bind_Raise_inv in H as [H | (u & _ & H)];
    [eapply py_add_raises, H|].
  apply bind_Raise_inv in H as [H | (p & _ & H)];
    [eapply py_pow_raises; eassumption|].
  eapply py_add_raises, H.
Qed.

Lemma limit_reached_iff (s : RetryStrategy) (a : Z) :
  limit_reached s a = true <->
  exists m, max_attempts s = Some m /\ m <> 0 /\ m <= a.
Proof.
  unfold limit_reached. destruct (max_attempts s) as [m|]; split.
  - intros H. apply andb_true_iff in H as [H1 H2].
    exists m. apply negb_true_iff, Z.eqb_neq in H1. apply Z.leb_le in H2.
    auto.
  - intros (m' & [= <-] & H1 & H2). apply andb_true_iff. split.
    + apply negb_true_iff, Z.eqb_neq, H1.
    + apply Z.leb_le, H2.
  - discriminate.
  - intros (m' & [=] & _).
Qed.

Lemma running_not_None (s : RetryStrategy) (a : Z) :
  limit_reached s a = false -> RetryStrategy_get_schedule_in s a <> Ok None.
Proof.
  intros H. rewrite (get_schedule_in_running s a H).
  destruct (total_wait s a); discriminate.
Qed.

Lemma running_outcome (s : RetryStrategy) (a : Z) :
  limit_reached s a = false -> 0 <= a ->
  (exists d, RetryStrategy_get_schedule_in s a = Ok (Some d)) \/
  RetryStrategy_get_schedule_in s a = Raise OverflowError.
Proof.
  intros H Ha. rewrite (get_schedule_in_running s a H).
  destruct (total_wait s a) as [d|e] eqn:Ht.
  - left. exists d. reflexivity.
  - right. rewrite (total_wait_raises s a e Ha Ht). reflexivity.
Qed.

Lemma running_no_wait (s : RetryStrategy) (a : Z) :
  limit_reached s a = false -> no_wait s -> 0 <= a < 2 ^ 1023 ->
  RetryStrategy_get_schedule_in s a =
  Ok (Some (PyFloat (if a =? 0 then float_one else float_lit 0))).
Proof.
  intros H Hs Ha. rewrite (get_schedule_in_running s a H).
  rewrite (no_wait_total s a Hs Ha). reflexivity.
Qed.

Lemma float_of_int_nonneg_ok (a : Z) :
  0 <= a < 2 ^ 1023 -> exists x, float_of_int a = Ok x.
Proof.
  intros [H0 H1]. destruct (Z.eq_dec a 0) as [-> | Hne].
  - eexists. reflexivity.
  - destruct (float_of_int_in_range a) as (m & e & Hf); [lia|]. eauto.
Qed.

Lemma float_fields_total (w l x : float) (s : RetryStrategy) (a : Z) :
  wait s = PyFloat w -> linear_wait s = PyFloat l ->
  exponential_wait s = PyFloat x ->
  0 <= a < 2 ^ 1023 ->
  (exists p, py_pow (PyFloat x) a = Ok p) ->
  exists d, total_wait s a = Ok d.
Proof.
  intros Hw Hl Hx Ha [p Hp]. unfold total_wait. rewrite Hw, Hl, Hx, Hp.
  destruct (float_of_int_nonneg_ok a Ha) as [fa Hfa].
  unfold py_mul, to_double. rewrite Hfa, !bind_Ok.
  unfold py_pow in Hp. apply bind_Ok_inv in Hp as (r & _ & [= <-]).
  eexists. reflexivity.
Qed.

(** ** The claims *)

(** C1. The claim is that a default-constructed strategy returns the delay
    0.0 for every attempt count.  The code does so from the first retry on
    (as far as [attempts] converts to a float), but at [attempts = 0] the
    term [0.0 ** 0] is 1.0 and the delay is 1.0. *)
Theorem default_strategy_delays :
  RetryStrategy_get_schedule_in RetryStrategy_default 0
  = Ok (Some (PyFloat (float_lit 1))) /\
  forall attempts, 0 < attempts < 2 ^ 1023 ->
    RetryStrategy_get_schedule_in RetryStrategy_default attempts
    = Ok (Some (PyFloat (float_lit 0))).
Proof.
  split; [vm_compute; reflexivity|].
  intros a Ha.
  rewrite (running_no_wait RetryStrategy_default a); try reflexivity; try lia.
  - destruct (Z.eqb_spec a 0); [lia | reflexivity].
  - repeat split.
Qed.

(** C5. The claim is that [RetryStrategy(wait=3)] returns 3.0 for every
    attempt count.  The code returns 3.0 from the first retry on, and 4.0 at
    [attempts = 0], where [0.0 ** 0] adds 1.0. *)
Theorem constant_wait_delays :
  RetryStrategy_get_schedule_in (with_wait (PyInt 3) RetryStrategy_default) 0
  = Ok (Some (PyFloat (float_lit 4))) /\
  forall attempts, 0 < attempts < 2 ^ 1023 ->
    RetryStrategy_get_schedule_in
      (with_wait (PyInt 3) RetryStrategy_default) attempts
    = Ok (Some (PyFloat (float_lit 3))).
Proof.
  split; [vm_compute; reflexivity|].
  intros a Ha.
  rewrite get_schedule_in_running by reflexivity.
  unfold total_wait, with_wait, RetryStrategy_default; cbn [wait linear_wait exponential_wait].
  rewrite zero_times_attempts by lia. rewrite bind_Ok.
  rewrite zero_pow_attempts by lia.
  vm_compute. reflexivity.
Qed.

(** C3, as stated, fails: below the limit the delay may overflow, and the
    call then raises instead of returning a delay.  With
    [RetryStrategy(max_attempts=2000, exponential_wait=2.0)], attempt 1024
    is below the limit and [2.0 ** 1024] raises OverflowError. *)
Lemma max_attempts_overflow_counterexample :
  max_attempts
    (with_exponential_wait (PyFloat (float_lit 2))
       (with_max_attempts (Some 2000) RetryStrategy_default)) = Some 2000 /\
  0 <= 1024 < 2000 /\
  RetryStrategy_get_schedule_in
    (with_exponential_wait (PyFloat (float_lit 2))
       (with_max_attempts (Some 2000) RetryStrategy_default)) 1024
  = Raise OverflowError.
Proof. split; [reflexivity|]. split; [lia|]. vm_compute. reflexivity. Qed.

(** C3, amended.  With [max_attempts] set to a positive [m]: every
    [attempts >= m] gives [None]; every [0 <= attempts < m] gives the delay
    of the formula, never [None], and the only way not to get a delay is
    the OverflowError of the formula; with no wait configured and
    [m <= 2 ** 1023] a delay is returned for every [0 <= attempts < m]. *)
Theorem max_attempts_limit (s : RetryStrategy) (m : Z) :
  max_attempts s = Some m -> 0 < m ->
  (forall attempts, m <= attempts ->
     RetryStrategy_get_schedule_in s attempts = Ok None) /\
  (forall attempts, 0 <= attempts < m ->
     RetryStrategy_get_schedule_in s attempts
     = (d ← total_wait s attempts; Ok (Some d)) /\
     RetryStrategy_get_schedule_in s attempts <> Ok None /\
     ((exists d, RetryStrategy_get_schedule_in s attempts = Ok (Some d)) \/
      RetryStrategy_get_schedule_in s attempts = Raise OverflowError)) /\
  (no_wait s -> m <= 2 ^ 1023 ->
   forall attempts, 0 <= attempts < m ->
     exists d, RetryStrategy_get_schedule_in s attempts = Ok (Some d)).
Proof.
  intros Hm Hpos.
  assert (Hrun : forall a, a < m -> limit_reached s a = false).
  { intros a Ha. unfold limit_reached. rewrite Hm.
    apply andb_false_iff. right. apply Z.leb_gt, Ha. }
  split; [|split].
  - intros a Ha. apply get_schedule_in_stopped, limit_reached_iff.
    exists m. repeat split; [assumption | lia | assumption].
  - intros a [Ha0 Ha]. specialize (Hrun a Ha). split; [|split].
    + apply get_schedule_in_running, Hrun.
    + apply running_not_None, Hrun.
    + apply running_outcome; assumption.
  - intros Hs Hm' a [Ha0 Ha]. eexists.
    apply running_no_wait; [apply Hrun, Ha | exact Hs | lia].
Qed.

(** [RetryStrategy(max_attempts=3)]: attempts 0, 1, 2 below the limit. *)
Lemma max_attempts_limit_witness :
  (forall attempts, 3 <= attempts ->
     RetryStrategy_get_schedule_in
       (with_max_attempts (Some 3) RetryStrategy_default) attempts = Ok None) /\
  (forall attempts, 0 <= attempts < 3 ->
     RetryStrategy_get_schedule_in
       (with_max_attempts (Some 3) RetryStrategy_default) attempts
     = (d ← total_wait (with_max_attempts (Some 3) RetryStrategy_default)
              attempts; Ok (Some d)) /\
     RetryStrategy_get_schedule_in
       (with_max_attempts (Some 3) RetryStrategy_default) attempts <> Ok None /\
     ((exists d,
         RetryStrategy_get_schedule_in
           (with_max_attempts (Some 3) RetryStrategy_default) attempts
         = Ok (Some d)) \/
      RetryStrategy_get_schedule_in
        (with_max_attempts (Some 3) RetryStrategy_default) attempts
      = Raise OverflowError)) /\
  (no_wait (with_max_attempts (Some 3) RetryStrategy_default) ->
   3 <= 2 ^ 1023 ->
   forall attempts, 0 <= attempts < 3 ->
     exists d,
       RetryStrategy_get_schedule_in
         (with_max_attempts (Some 3) RetryStrategy_default) attempts
       = Ok (Some d)).
Proof.
  apply (max_attempts_limit (with_max_attempts (Some 3) RetryStrategy_default) 3);
    [reflexivity | lia].
Defined.




(** C7, as stated, fails: the delay's arithmetic can overflow, and Python
    raises OverflowError where it does.  With
    [RetryStrategy(exponential_wait=2.0)], attempt 1023 still returns
    [2.0 ** 1023] and attempt 1024 raises on [2.0 ** 1024]. *)
Lemma get_schedule_in_overflow_counterexample :
  RetryStrategy_get_schedule_in
    (with_exponential_wait (PyFloat (float_lit 2)) RetryStrategy_default) 1023
  = Ok (Some (PyFloat (float_lit (2 ^ 1023)))) /\
  RetryStrategy_get_schedule_in
    (with_exponential_wait (PyFloat (float_lit 2)) RetryStrategy_default) 1024
  = Raise OverflowError.
Proof. split; vm_compute; reflexivity. Qed.

(** C7, amended.  For non-negative [attempts], [get_schedule_in] returns
    ([None] or a number) or raises OverflowError, and nothing else; it
    returns [None] whenever the limit stops the retry, and it returns
    whenever the wait fields are floats, [attempts < 2 ** 1023] and
    [exponential_wait ** attempts] does not overflow. *)
Theorem get_schedule_in_outcome (s : RetryStrategy) (attempts : Z) :
  0 <= attempts ->
  ((exists r, RetryStrategy_get_schedule_in s attempts = Ok r) \/
   RetryStrategy_get_schedule_in s attempts = Raise OverflowError) /\
  (limit_reached s attempts = true ->
   RetryStrategy_get_schedule_in s attempts = Ok None) /\
  (forall w l x, wait s = PyFloat w -> linear_wait s = PyFloat l ->
     exponential_wait s = PyFloat x ->
     attempts < 2 ^ 1023 ->
     (exists p, py_pow (PyFloat x) attempts = Ok p) ->
     exists r, RetryStrategy_get_schedule_in s attempts = Ok r).
Proof.
  intros Ha. split; [|split].
  - destruct (limit_reached s attempts) eqn:Hl.
    + left. exists None. apply get_schedule_in_stopped, Hl.
    + destruct (running_outcome s attempts Hl Ha) as [[d Hd] | Hr];
        [left; exists (Some d); exact Hd | right; exact Hr].
  - apply get_schedule_in_stopped.
  - intros w l x Hw Hl Hx Hlt Hp.
    destruct (limit_reached s attempts) eqn:Hlim.
    + exists None. apply get_schedule_in_stopped, Hlim.
    + rewrite (get_schedule_in_running s attempts Hlim).
      destruct (float_fields_total w l x s attempts Hw Hl Hx) as [d Hd];
        [lia | exact Hp |].
      rewrite Hd. eexists. reflexivity.
Qed.

(** [8.0 + 4.0 * 3 + 2.0 ** 3] is in range. *)
Lemma get_schedule_in_outcome_witness :
  exists r,
    RetryStrategy_get_schedule_in
      {| max_attempts := None; wait := PyFloat (float_lit 8);
         linear_wait := PyFloat (float_lit 4);
         exponential_wait := PyFloat (float_lit 2) |} 3 = Ok r.
Proof.
  apply (get_schedule_in_outcome
           {| max_attempts := None; wait := PyFloat (float_lit 8);
              linear_wait := PyFloat (float_lit 4);
              exponential_wait := PyFloat (float_lit 2) |} 3 ltac:(lia))
    with (w := float_lit 8) (l := float_lit 4) (x := float_lit 2);
    [reflexivity | reflexivity | reflexivity | lia |].
  eexists. vm_compute. reflexivity.
Defined.



(** C9, as stated, fails for the same overflow: with
    [RetryStrategy(max_attempts=0, exponential_wait=2.0)], attempt 1024
    raises OverflowError, so no delay is returned. *)
Lemma max_attempts_zero_counterexample :
  max_attempts
    (with_exponential_wait (PyFloat (float_lit 2))
       (with_max_attempts (Some 0) RetryStrategy_default)) = Some 0 /\
  RetryStrategy_get_schedule_in
    (with_exponential_wait (PyFloat (float_lit 2))
       (with_max_attempts (Some 0) RetryStrategy_default)) 1024
  = Raise OverflowError.
Proof. split; [reflexivity | vm_compute; reflexivity]. Qed.

(** C9, amended.  A strategy with [max_attempts = 0] behaves as the same
    strategy with no limit: [get_schedule_in] never returns [None]; for
    non-negative [attempts] it returns the delay of the formula unless
    that overflows (OverflowError), and with no wait configured it returns
    a delay for every [0 <= attempts < 2 ** 1023]. *)
Theorem max_attempts_zero_is_no_limit (s : RetryStrategy) (attempts : Z) :
  max_attempts s = Some 0 ->
  RetryStrategy_get_schedule_in s attempts
  = RetryStrategy_get_schedule_in (with_max_attempts None s) attempts /\
  RetryStrategy_get_schedule_in s attempts <> Ok None /\
  (0 <= attempts ->
   (exists d, RetryStrategy_get_schedule_in s attempts = Ok (Some d)) \/
   RetryStrategy_get_schedule_in s attempts = Raise OverflowError) /\
  (no_wait s -> 0 <= attempts < 2 ^ 1023 ->
   exists d, RetryStrategy_get_schedule_in s attempts = Ok (Some d)).
Proof.
  intros Hm.
  assert (Hrun : limit_reached s attempts = false)
    by (unfold limit_reached; rewrite Hm; reflexivity).
  split; [|split; [|split]].
  - rewrite !get_schedule_in_running by (exact Hrun || reflexivity).
    reflexivity.
  - apply running_not_None, Hrun.
  - apply running_outcome, Hrun.
  - intros Hs Ha. eexists. apply running_no_wait; assumption.
Qed.

(** [RetryStrategy(max_attempts=0)] at attempt 7. *)
Lemma max_attempts_zero_is_no_limit_witness :
  RetryStrategy_get_schedule_in
    (with_max_attempts (Some 0) RetryStrategy_default) 7
  = RetryStrategy_get_schedule_in
      (with_max_attempts None
         (with_max_attempts (Some 0) RetryStrategy_default)) 7 /\
  RetryStrategy_get_schedule_in
    (with_max_attempts (Some 0) RetryStrategy_default) 7 <> Ok None /\
  (0 <= 7 ->
   (exists d,
      RetryStrategy_get_schedule_in
        (with_max_attempts (Some 0) RetryStrategy_default) 7 = Ok (Some d)) \/
   RetryStrategy_get_schedule_in
     (with_max_attempts (Some 0) RetryStrategy_default) 7
   = Raise OverflowError) /\
  (no_wait (with_max_attempts (Some 0) RetryStrategy_default) ->
   0 <= 7 < 2 ^ 1023 ->
   exists d,
     RetryStrategy_get_schedule_in
       (with_max_attempts (Some 0) RetryStrategy_default) 7 = Ok (Some d)).
Proof.
  apply (max_attempts_zero_is_no_limit
           (with_max_attempts (Some 0) RetryStrategy_default) 7).
  reflexivity.
Defined.

(** C10. For a negative int [n], [get_retry_strategy(n)] makes a new
    strategy with [max_attempts = n] and no wait, and a call of
    [get_schedule_in] on it returns [None] for every non-negative
    [attempts]. *)
Theorem negative_retry_never_schedules (p : positive) (h : heap) :
  exists l h' o,
    get_retry_strategy (RetryInt (Z.neg p)) h = (Some l, h') /\
    h !! l = None /\
    h' !! l = Some o /\
    max_attempts o = Some (Z.neg p) /\ no_wait o /\
    forall attempts, 0 <= attempts ->
      RetryStrategy_get_schedule_in o attempts = Ok None /\
      call_get_schedule_in h' l attempts = Some (Ok None, h').
Proof.
  exists (fresh (dom h)),
    (<[fresh (dom h) := with_max_attempts (Some (Z.neg p)) RetryStrategy_default]> h),
    (with_max_attempts (Some (Z.neg p)) RetryStrategy_default).
  assert (Hnone : forall a, 0 <= a ->
            RetryStrategy_get_schedule_in
              (with_max_attempts (Some (Z.neg p)) RetryStrategy_default) a
            = Ok None).
  { intros a Ha. apply get_schedule_in_stopped, limit_reached_iff.
    exists (Z.neg p). repeat split; lia. }
  split; [reflexivity|].
  split; [apply not_elem_of_dom, is_fresh|].
  split; [apply lookup_insert_eq|].
  split; [reflexivity|].
  split; [repeat split|].
  intros a Ha. split; [apply Hnone, Ha|].
  unfold call_get_schedule_in. rewrite lookup_insert_eq. simpl.
  rewrite (Hnone a Ha). reflexivity.
Qed.

(** C2. [get_retry_strategy] is defined on the whole union: a falsy value
    ([False], [0]) gives [None]; [True] gives a new strategy with no limit
    and no wait; a positive int [n] gives a new strategy with
    [max_attempts = n] and no wait; a strategy instance is returned as it
    is, the same reference into an unchanged store.  Every input gives a
    result and leaves the objects already in the store alone. *)
Theorem get_retry_strategy_cases (h : heap) :
  get_retry_strategy (RetryBool false) h = (None, h) /\
  get_retry_strategy (RetryInt 0) h = (None, h) /\
  (h !! fresh (dom h) = None /\
   get_retry_strategy (RetryBool true) h
   = (Some (fresh (dom h)), <[fresh (dom h) := RetryStrategy_default]> h) /\
   max_attempts RetryStrategy_default = None /\
   no_wait RetryStrategy_default) /\
  (forall n : positive,
     get_retry_strategy (RetryInt (Z.pos n)) h
     = (Some (fresh (dom h)),
        <[fresh (dom h) :=
            with_max_attempts (Some (Z.pos n)) RetryStrategy_default]> h) /\
     max_attempts (with_max_attempts (Some (Z.pos n)) RetryStrategy_default)
     = Some (Z.pos n) /\
     no_wait (with_max_attempts (Some (Z.pos n)) RetryStrategy_default)) /\
  (forall l, get_retry_strategy (RetryObject l) h = (Some l, h)) /\
  (forall retry, exists r h',
     get_retry_strategy retry h = (r, h') /\
     forall l o, h !! l = Some o -> h' !! l = Some o).
Proof.
  assert (Hfresh : h !! fresh (dom h) = None)
    by apply not_elem_of_dom, is_fresh.
  assert (Hkeep : forall o' l o,
            h !! l = Some o -> <[fresh (dom h) := o']> h !! l = Some o).
  { intros o' l o Hl. rewrite lookup_insert_ne; [exact Hl|].
    intros <-. congruence. }
  repeat split; try reflexivity; try assumption.
  intros retry. unfold get_retry_strategy, alloc.
  destruct retry as [[|]|n|l]; simpl; try (do 2 eexists; split; [reflexivity|]);
    auto.
  destruct (n =? 0); simpl; do 2 eexists; (split; [reflexivity|]); auto.
Qed.

(** * Further properties of the module *)

(** ** Floats that come from ints *)

Lemma float_of_int_shape (z : Z) (f : float) :
  float_of_int z = Ok f ->
  f = S754_zero false \/ exists s m e, f = S754_finite s m e.
Proof.
  destruct z as [|p|p]; simpl.
  - intros [= <-]. left. reflexivity.
  - destruct (round_to_53 p) as [m e]. destruct (e <=? emax - prec);
      [intros [= <-]; right; eauto | discriminate].
  - destruct (round_to_53 p) as [m e]. destruct (e <=? emax - prec);
      [intros [= <-]; right; eauto | discriminate].
Qed.

Lemma zero_plus_int_float (z : Z) (f : float) :
  float_of_int z = Ok f ->
  float_add (S754_zero false) f = f /\ float_add f (S754_zero false) = f.
Proof.
  intros H. destruct (float_of_int_shape z f H) as [-> | (s & m & e & ->)];
    split; reflexivity.
Qed.

Lemma float_of_int_negative_in_range (z : Z) :
  - 2 ^ 1023 < z < 0 ->
  exists m e, float_of_int z = Ok (S754_finite true m e).
Proof.
  intros [Hlo Hneg]. destruct z as [|p|p]; try lia.
  unfold float_of_int. destruct (round_to_53 p) as [m e] eqn:Hr.
  assert (Hp : Z.pos p < 2 ^ 1023) by lia.
  pose proof (round_to_53_exponent p m e Hp Hr) as He.
  apply Z.leb_le in He. rewrite He. eauto.
Qed.

Lemma limit_reached_mono (s : RetryStrategy) (a a' : Z) :
  a <= a' -> limit_reached s a = true -> limit_reached s a' = true.
Proof.
  intros Hle H. apply limit_reached_iff in H as (m & Hm & Hne & Hma).
  apply limit_reached_iff. exists m. repeat split; [assumption.. | lia].
Qed.

Lemma get_schedule_in_None_iff (s : RetryStrategy) (a : Z) :
  RetryStrategy_get_schedule_in s a = Ok None <-> limit_reached s a = true.
Proof.
  split; [| apply get_schedule_in_stopped].
  destruct (limit_reached s a) eqn:H; [reflexivity|].
  intros Hn. exfalso. exact (running_not_None s a H Hn).
Qed.

(** ** When [get_schedule_in] stops *)

(** X1. [get_schedule_in] returns [None] exactly when [max_attempts] is a
    non-zero int that [attempts] has reached; once it has returned [None]
    it returns [None] for every later attempt. *)
Theorem stops_exactly_at_limit (s : RetryStrategy) (attempts : Z) :
  (RetryStrategy_get_schedule_in s attempts = Ok None <->
   exists m, max_attempts s = Some m /\ m <> 0 /\ m <= attempts) /\
  (forall later, attempts <= later ->
     RetryStrategy_get_schedule_in s attempts = Ok None ->
     RetryStrategy_get_schedule_in s later = Ok None).
Proof.
  split.
  - rewrite get_schedule_in_None_iff. apply limit_reached_iff.
  - intros later Hle H. apply get_schedule_in_None_iff.
    apply (limit_reached_mono s attempts later Hle).
    apply get_schedule_in_None_iff, H.
Qed.

(** X2. The limit only gates: whenever [get_schedule_in] does not return
    [None], it gives what the same strategy without [max_attempts] gives,
    the same delay or the same exception. *)
Theorem limit_only_gates (s : RetryStrategy) (attempts : Z) :
  RetryStrategy_get_schedule_in s attempts <> Ok None ->
  RetryStrategy_get_schedule_in s attempts
  = RetryStrategy_get_schedule_in (with_max_attempts None s) attempts.
Proof.
  intros H. destruct (limit_reached s attempts) eqn:Hl.
  - exfalso. apply H, get_schedule_in_stopped, Hl.
  - rewrite !get_schedule_in_running by (exact Hl || reflexivity).
    reflexivity.
Qed.

(** [RetryStrategy(max_attempts=5, wait=3)] at attempt 2. *)
Lemma limit_only_gates_witness :
  RetryStrategy_get_schedule_in
    (with_max_attempts (Some 5) (with_wait (PyInt 3) RetryStrategy_default)) 2
  = RetryStrategy_get_schedule_in
      (with_max_attempts None
         (with_max_attempts (Some 5)
            (with_wait (PyInt 3) RetryStrategy_default))) 2.
Proof.
  apply (limit_only_gates
           (with_max_attempts (Some 5)
              (with_wait (PyInt 3) RetryStrategy_default)) 2).
  vm_compute. discriminate.
Defined.

(** ** [get_retry_exception] *)

(** X3. [get_retry_exception] handles no exception: what
    [get_schedule_in] raises comes out of it unchanged, whatever the clock
    reads; so does what the addition of the delay to the clock raises. *)
Theorem get_retry_exception_propagates
    {DateTime S : Type} `{BaseRetryStrategy S}
    (add_seconds : DateTime -> number -> result DateTime)
    (self : S) (now : DateTime) (attempts : Z) (e : exn) :
  get_schedule_in self attempts = Raise e \/
  (exists seconds, get_schedule_in self attempts = Ok (Some seconds) /\
                   add_seconds now seconds = Raise e) ->
  get_retry_exception add_seconds self now attempts = Raise e.
Proof.
  unfold get_retry_exception. intros [-> | (seconds & -> & Hadd)].
  - reflexivity.
  - rewrite bind_Ok, Hadd. reflexivity.
Qed.

(** The base class: its [get_schedule_in] is not implemented, and
    [get_retry_exception] raises the same NotImplementedError. *)
Lemma get_retry_exception_propagates_witness :
  get_retry_exception (fun (t : Z) (_ : number) => Ok t) BaseObject 0 0
  = Raise NotImplementedError.
Proof.
  apply (get_retry_exception_propagates
           (fun (t : Z) (_ : number) => Ok t) BaseObject 0 0
           NotImplementedError).
  left. reflexivity.
Defined.

(** X4. For a [RetryStrategy], [get_retry_exception] returns [None] exactly
    when [max_attempts] is a non-zero int that [attempts] has reached,
    whatever the clock reads and whatever the time library does. *)
Theorem retry_exception_None_iff_limit
    {DateTime : Type} (add_seconds : DateTime -> number -> result DateTime)
    (s : RetryStrategy) (now : DateTime) (attempts : Z) :
  get_retry_exception add_seconds s now attempts = Ok None <->
  exists m, max_attempts s = Some m /\ m <> 0 /\ m <= attempts.
Proof.
  rewrite <- limit_reached_iff, <- get_schedule_in_None_iff.
  unfold get_retry_exception. cbn [get_schedule_in retry_strategy].
  destruct (RetryStrategy_get_schedule_in s attempts) as [[d|]|e]; split;
    try discriminate; try reflexivity.
  rewrite bind_Ok. destruct (add_seconds now d); discriminate.
Qed.

(** ** [get_retry_strategy] followed by [get_schedule_in] *)

Lemma get_retry_strategy_constructs (retry : RetryValue) (h h' : heap) (l : loc) :
  (forall l0, retry <> RetryObject l0) ->
  get_retry_strategy retry h = (Some l, h') ->
  l = fresh (dom h) /\ exists o, h' = <[l := o]> h.
Proof.
  intros Hobj. unfold get_retry_strategy, alloc.
  destruct retry as [[|]|n|l0]; simpl.
  - intros [= <- <-]. eauto.
  - discriminate.
  - destruct (n =? 0); simpl; [discriminate|]. intros [= <- <-]. eauto.
  - exfalso. exact (Hobj l0 eq_refl).
Qed.

(** X5. [retry=n] for a positive int [n] (up to 2 ** 1023) resolves to a
    strategy that schedules attempts 0 to n-1 and stops from attempt n on:
    called through the returned reference, [get_schedule_in] gives the
    delay 1.0 at attempt 0, 0.0 at attempts 1 to n-1 and [None] from n on,
    and leaves the store as it is. *)
Theorem resolved_int_schedule (n : positive) (h : heap) :
  Z.pos n <= 2 ^ 1023 ->
  exists l h',
    get_retry_strategy (RetryInt (Z.pos n)) h = (Some l, h') /\
    forall attempts, 0 <= attempts ->
      call_get_schedule_in h' l attempts
      = Some (if Z.pos n <=? attempts then Ok None
              else Ok (Some (PyFloat (if attempts =? 0 then float_lit 1
                                      else float_lit 0))),
              h').
Proof.
  intros Hn. do 2 eexists. split; [reflexivity|].
  intros a Ha. unfold call_get_schedule_in. rewrite lookup_insert_eq. simpl.
  f_equal. f_equal.
  destruct (Z.leb_spec (Z.pos n) a) as [Hle | Hlt].
  - apply get_schedule_in_stopped, limit_reached_iff.
    exists (Z.pos n). repeat split; [lia | exact Hle].
  - rewrite running_no_wait; [destruct (a =? 0); reflexivity | | | lia].
    + unfold limit_reached. simpl. apply Z.leb_gt, Hlt.
    + repeat split.
Qed.

(** [retry=5] on an empty store. *)
Lemma resolved_int_schedule_witness :
  exists l h',
    get_retry_strategy (RetryInt 5) ∅ = (Some l, h') /\
    forall attempts, 0 <= attempts ->
      call_get_schedule_in h' l attempts
      = Some (if 5 <=? attempts then Ok None
              else Ok (Some (PyFloat (if attempts =? 0 then float_lit 1
                                      else float_lit 0))),
              h').
Proof. apply (resolved_int_schedule 5 ∅). lia. Defined.

(** X6. [retry=True] resolves to a strategy that never stops: called
    through the returned reference, [get_schedule_in] never gives [None],
    and for attempts below 2 ** 1023 it gives the delay 1.0 at attempt 0
    and 0.0 afterwards. *)
Theorem resolved_True_never_stops (h : heap) :
  exists l h',
    get_retry_strategy (RetryBool true) h = (Some l, h') /\
    (forall attempts, exists r,
        call_get_schedule_in h' l attempts = Some (r, h') /\ r <> Ok None) /\
    (forall attempts, 0 <= attempts < 2 ^ 1023 ->
       call_get_schedule_in h' l attempts
       = Some (Ok (Some (PyFloat (if attempts =? 0 then float_lit 1
                                  else float_lit 0))), h')).
Proof.
  do 2 eexists. split; [reflexivity|]. split.
  - intros a. eexists. unfold call_get_schedule_in.
    rewrite lookup_insert_eq. simpl. split; [reflexivity|].
    apply running_not_None. reflexivity.
  - intros a Ha. unfold call_get_schedule_in. rewrite lookup_insert_eq. simpl.
    rewrite running_no_wait; [destruct (a =? 0); reflexivity | | | lia].
    + reflexivity.
    + repeat split.
Qed.

(** X7. Each [True] or non-zero int makes an instance of its own: the
    reference returned is new to the store, a second resolution returns a
    different reference, and leaves the first object as it was. *)
Theorem constructed_instances_distinct
    (r1 r2 : RetryValue) (h h1 h2 : heap) (l1 l2 : loc) :
  (forall l, r1 <> RetryObject l) -> (forall l, r2 <> RetryObject l) ->
  get_retry_strategy r1 h = (Some l1, h1) ->
  get_retry_strategy r2 h1 = (Some l2, h2) ->
  l1 <> l2 /\ h !! l1 = None /\ is_Some (h1 !! l1) /\ h2 !! l1 = h1 !! l1.
Proof.
  intros Ho1 Ho2 H1 H2.
  apply get_retry_strategy_constructs in H1 as (-> & o1 & ->); [|exact Ho1].
  apply get_retry_strategy_constructs in H2 as (-> & o2 & ->); [|exact Ho2].
  assert (Hin : is_Some (<[fresh (dom h) := o1]> h !! fresh (dom h)))
    by (rewrite lookup_insert_eq; eauto).
  assert (Hne : fresh (dom h) <> fresh (dom (<[fresh (dom h) := o1]> h))).
  { intros Heq. apply (is_fresh (dom (<[fresh (dom h) := o1]> h))).
    rewrite <- Heq. apply elem_of_dom, Hin. }
  split; [exact Hne|]. split; [apply not_elem_of_dom, is_fresh|].
  split; [exact Hin|].
  apply lookup_insert_ne. intros Heq. apply Hne. symmetry. exact Heq.
Qed.

(** [True], then [5], on an empty store. *)
Lemma constructed_instances_distinct_witness :
  (1 <> 2)%positive /\
  (∅ : heap) !! 1%positive = None /\
  is_Some ((<[1%positive := RetryStrategy_default]> (∅ : heap)) !! 1%positive) /\
  (<[2%positive := with_max_attempts (Some 5) RetryStrategy_default]>
     (<[1%positive := RetryStrategy_default]> (∅ : heap))) !! 1%positive
  = (<[1%positive := RetryStrategy_default]> (∅ : heap)) !! 1%positive.
Proof.
  apply (constructed_instances_distinct (RetryBool true) (RetryInt 5) ∅);
    [intros l; discriminate | intros l; discriminate
    | vm_compute; reflexivity | vm_compute; reflexivity].
Defined.

(** ** Delays of the single backoff terms *)

Lemma float_plus_zero (x : float) :
  x <> S754_zero true -> float_add x (S754_zero false) = x.
Proof. destruct x as [[|]|s| |s m e]; intros H; try reflexivity. congruence. Qed.

(** X8. Constant backoff: from the first retry on (attempts 1 up to
    2 ** 1023), [RetryStrategy(wait=w)] returns [w] itself: [float(w)] for
    an int [w], with the OverflowError of that conversion when [w] is out
    of range, and [w] for a float other than [-0.0]. *)
Theorem constant_wait_returns_wait (attempts : Z) :
  0 < attempts < 2 ^ 1023 ->
  (forall w : Z,
     RetryStrategy_get_schedule_in
       (with_wait (PyInt w) RetryStrategy_default) attempts
     = (f ← float_of_int w; Ok (Some (PyFloat f)))) /\
  (forall x : float, x <> S754_zero true ->
     RetryStrategy_get_schedule_in
       (with_wait (PyFloat x) RetryStrategy_default) attempts
     = Ok (Some (PyFloat x))).
Proof.
  intros Ha. split.
  - intros w. rewrite get_schedule_in_running by reflexivity.
    unfold total_wait, with_wait, RetryStrategy_default;
      cbn [wait linear_wait exponential_wait].
    rewrite zero_times_attempts by lia. rewrite bind_Ok.
    rewrite zero_pow_attempts by lia.
    unfold py_add, to_double.
    destruct (float_of_int w) as [f|e] eqn:Hf; [|reflexivity].
    destruct (zero_plus_int_float w f Hf) as [_ Hr].
    rewrite !bind_Ok. change (float_lit 0) with (S754_zero false).
    rewrite !Hr. reflexivity.
  - intros x Hx. rewrite get_schedule_in_running by reflexivity.
    unfold total_wait, with_wait, RetryStrategy_default;
      cbn [wait linear_wait exponential_wait].
    rewrite zero_times_attempts by lia. rewrite bind_Ok.
    rewrite zero_pow_attempts by lia.
    unfold py_add, to_double. rewrite !bind_Ok.
    change (float_lit 0) with (S754_zero false).
    rewrite !(float_plus_zero x Hx). reflexivity.
Qed.

(** [RetryStrategy(wait=5)] at attempt 9. *)
Lemma constant_wait_returns_wait_witness :
  RetryStrategy_get_schedule_in
    (with_wait (PyInt 5) RetryStrategy_default) 9
  = (f ← float_of_int 5; Ok (Some (PyFloat f))).
Proof.
  apply (proj1 (constant_wait_returns_wait 9 ltac:(lia))).
Defined.

(** X9. Linear backoff: from the first retry on, [RetryStrategy(linear_wait=k)]
    with an int [k] returns [float(k * attempts)], the product taken
    exactly in the integers, or the OverflowError of that conversion. *)
Theorem linear_wait_returns_product (k attempts : Z) :
  0 < attempts < 2 ^ 1023 ->
  RetryStrategy_get_schedule_in
    (with_linear_wait (PyInt k) RetryStrategy_default) attempts
  = (f ← float_of_int (k * attempts); Ok (Some (PyFloat f))).
Proof.
  intros Ha. rewrite get_schedule_in_running by reflexivity.
  unfold total_wait, with_linear_wait, RetryStrategy_default;
    cbn [wait linear_wait exponential_wait].
  unfold py_mul. rewrite bind_Ok.
  rewrite zero_pow_attempts by lia.
  unfold py_add, to_double. rewrite bind_Ok.
  destruct (float_of_int (k * attempts)) as [f|e] eqn:Hf; [|reflexivity].
  destruct (zero_plus_int_float _ f Hf) as [Hl Hr].
  rewrite !bind_Ok. change (float_lit 0) with (S754_zero false).
  rewrite Hl, Hr. reflexivity.
Qed.

(** [RetryStrategy(linear_wait=7)] at attempt 3: 21.0 *)
Lemma linear_wait_returns_product_witness :
  RetryStrategy_get_schedule_in
    (with_linear_wait (PyInt 7) RetryStrategy_default) 3
  = (f ← float_of_int (7 * 3); Ok (Some (PyFloat f))).
Proof. apply (linear_wait_returns_product 7 3). lia. Defined.

Lemma exponential_int_delay (x attempts : Z) :
  0 <= attempts < 2 ^ 1023 ->
  RetryStrategy_get_schedule_in
    (with_exponential_wait (PyInt x) RetryStrategy_default) attempts
  = (f ← float_of_int (x ^ attempts); Ok (Some (PyFloat f))).
Proof.
  intros Ha. rewrite get_schedule_in_running by reflexivity.
  unfold total_wait, with_exponential_wait, RetryStrategy_default;
    cbn [wait linear_wait exponential_wait].
  rewrite zero_times_attempts by lia. rewrite bind_Ok.
  unfold py_pow. destruct Ha as [Ha0 _]. apply Z.leb_le in Ha0. rewrite Ha0.
  unfold py_add, to_double. rewrite !bind_Ok.
  destruct (float_of_int (x ^ attempts)) as [f|e] eqn:Hf; [|reflexivity].
  destruct (zero_plus_int_float _ f Hf) as [Hl _].
  rewrite !bind_Ok. change (float_lit 0) with (S754_zero false).
  change (float_add (S754_zero false) (S754_zero false)) with (S754_zero false).
  rewrite Hl. reflexivity.
Qed.


(** X10. Exponential backoff: [RetryStrategy(exponential_wait=x)] with an
    int [x] returns [float(x ** attempts)], the power taken exactly in the
    integers (1 at attempt 0), or the OverflowError of that conversion. *)
Theorem exponential_wait_returns_power (x attempts : Z) :
  0 <= attempts < 2 ^ 1023 ->
  RetryStrategy_get_schedule_in
    (with_exponential_wait (PyInt x) RetryStrategy_default) attempts
  = (f ← float_of_int (x ^ attempts); Ok (Some (PyFloat f))).
Proof. apply exponential_int_delay. Qed.

(** [RetryStrategy(exponential_wait=2)] at attempt 3: 8.0 *)
Lemma exponential_wait_returns_power_witness :
  RetryStrategy_get_schedule_in
    (with_exponential_wait (PyInt 2) RetryStrategy_default) 3
  = (f ← float_of_int (2 ^ 3); Ok (Some (PyFloat f))).
Proof. apply (exponential_wait_returns_power 2 3). lia. Defined.

(** X11. With int fields the delay is the exact integer
    [w + l * attempts + x ** attempts], and for [l >= 0] and [x >= 1] it
    never shrinks from one attempt to a later one that is still
    scheduled. *)
Theorem int_backoff_nondecreasing
    (s : RetryStrategy) (w l x attempts later : Z) :
  wait s = PyInt w -> linear_wait s = PyInt l ->
  exponential_wait s = PyInt x ->
  0 <= l -> 1 <= x -> 0 <= attempts <= later ->
  RetryStrategy_get_schedule_in s later <> Ok None ->
  RetryStrategy_get_schedule_in s attempts
  = Ok (Some (PyInt (w + l * attempts + x ^ attempts))) /\
  RetryStrategy_get_schedule_in s later
  = Ok (Some (PyInt (w + l * later + x ^ later))) /\
  w + l * attempts + x ^ attempts <= w + l * later + x ^ later.
Proof.
  intros Hw Hl Hx Hl0 Hx1 [Ha Hle] Hrun.
  assert (Hlater : limit_reached s later = false).
  { destruct (limit_reached s later) eqn:E; [|reflexivity].
    exfalso. apply Hrun, get_schedule_in_stopped, E. }
  assert (Hnow : limit_reached s attempts = false).
  { destruct (limit_reached s attempts) eqn:E; [|reflexivity].
    rewrite (limit_reached_mono s attempts later Hle E) in Hlater.
    discriminate. }
  assert (Hval : forall a, 0 <= a -> limit_reached s a = false ->
            RetryStrategy_get_schedule_in s a
            = Ok (Some (PyInt (w + l * a + x ^ a)))).
  { intros a Ha0 Hlim. rewrite (get_schedule_in_running s a Hlim).
    unfold total_wait, py_pow. rewrite Hw, Hl, Hx.
    apply Z.leb_le in Ha0. rewrite Ha0. reflexivity. }
  split; [apply Hval; assumption|].
  split; [apply Hval; [lia | assumption]|].
  pose proof (Z.pow_le_mono_r x attempts later ltac:(lia) Hle) as Hpow.
  nia.
Qed.

(** [RetryStrategy(wait=8, linear_wait=4, exponential_wait=2)]: 28 at
    attempt 3, 56 at attempt 5. *)
Lemma int_backoff_nondecreasing_witness :
  RetryStrategy_get_schedule_in
    {| max_attempts := Some 10; wait := PyInt 8; linear_wait := PyInt 4;
       exponential_wait := PyInt 2 |} 3
  = Ok (Some (PyInt (8 + 4 * 3 + 2 ^ 3))) /\
  RetryStrategy_get_schedule_in
    {| max_attempts := Some 10; wait := PyInt 8; linear_wait := PyInt 4;
       exponential_wait := PyInt 2 |} 5
  = Ok (Some (PyInt (8 + 4 * 5 + 2 ^ 5))) /\
  8 + 4 * 3 + 2 ^ 3 <= 8 + 4 * 5 + 2 ^ 5.
Proof.
  apply (int_backoff_nondecreasing
           {| max_attempts := Some 10; wait := PyInt 8; linear_wait := PyInt 4;
              exponential_wait := PyInt 2 |} 8 4 2 3 5);
    try reflexivity; try lia.
  vm_compute. discriminate.
Defined.

(** X12. A negative [attempts] is not refused: with no wait configured and
    the limit not reached, [0.0 ** attempts] raises ZeroDivisionError
    (for attempts above -2 ** 1023). *)
Theorem negative_attempts_raise (s : RetryStrategy) (attempts : Z) :
  no_wait s -> - 2 ^ 1023 < attempts < 0 ->
  RetryStrategy_get_schedule_in s attempts <> Ok None ->
  RetryStrategy_get_schedule_in s attempts = Raise ZeroDivisionError.
Proof.
  intros (Hw & Hl & Hx) Ha Hrun.
  assert (Hlim : limit_reached s attempts = false).
  { destruct (limit_reached s attempts) eqn:E; [|reflexivity].
    exfalso. apply Hrun, get_schedule_in_stopped, E. }
  rewrite (get_schedule_in_running s attempts Hlim).
  unfold total_wait. rewrite Hw, Hl, Hx.
  destruct (float_of_int_negative_in_range attempts Ha) as (m & e & Hf).
  unfold py_mul, py_pow, float_pow, to_double. rewrite Hf, !bind_Ok.
  reflexivity.
Qed.

(** [RetryStrategy().get_schedule_in(-1)] *)
Lemma negative_attempts_raise_witness :
  RetryStrategy_get_schedule_in RetryStrategy_default (-1)
  = Raise ZeroDivisionError.
Proof.
  apply (negative_attempts_raise RetryStrategy_default (-1));
    [repeat split | lia | vm_compute; discriminate].
Defined.

(** X13. At attempt 0 the exponential term is 1 whatever
    [exponential_wait] is, int or float, zero, infinite or NaN: with no
    other wait configured the first delay is 1.0. *)
Theorem first_delay_ignores_exponential_wait (x : number) :
  RetryStrategy_get_schedule_in
    (with_exponential_wait x RetryStrategy_default) 0
  = Ok (Some (PyFloat (float_lit 1))).
Proof.
  rewrite get_schedule_in_running by reflexivity.
  unfold total_wait, with_exponential_wait, RetryStrategy_default;
    cbn [wait linear_wait exponential_wait].
  destruct x as [z|f]; reflexivity.
Qed.

Lemma round_to_53_pow2 (a : Z) (p : positive) :
  0 <= a -> Z.pos p = 2 ^ a -> round_to_53 p = (2 ^ 52, a - 52).
Proof.
  intros Ha Hp. unfold round_to_53, prec. rewrite Hp.
  rewrite (Z.log2_pow2 a Ha).
  destruct (Z.leb_spec (a + 1) 53) as [Hs | Hb].
  - f_equal; [|lia]. rewrite <- Z.pow_add_r by lia. f_equal. lia.
  - assert (Hq : 2 ^ a / 2 ^ (a + 1 - 53) = 2 ^ 52).
    { rewrite <- Z.pow_sub_r by lia. f_equal. lia. }
    assert (Hr : 2 ^ a mod 2 ^ (a + 1 - 53) = 0).
    { replace (2 ^ a) with (2 ^ 52 * 2 ^ (a + 1 - 53))
        by (rewrite <- Z.pow_add_r by lia; f_equal; lia).
      apply Z_mod_mult. }
    rewrite Hq, Hr.
    assert (Hh : 0 < 2 ^ (a + 1 - 53 - 1)) by (apply Z.pow_pos_nonneg; lia).
    destruct (Z.ltb_spec (2 ^ (a + 1 - 53 - 1)) 0) as [|_]; [lia|].
    destruct (Z.eqb_spec 0 (2 ^ (a + 1 - 53 - 1))) as [|_]; [lia|].
    simpl orb. cbv iota.
    destruct (Z.eqb_spec (2 ^ 52) (2 ^ 53)) as [E|_]; [discriminate E|].
    f_equal. lia.
Qed.

(** X14. Doubling backoff has a last attempt: [RetryStrategy(exponential_wait=2)]
    returns [2.0 ** attempts] for attempts 0 to 1023 and raises
    OverflowError from attempt 1024 on. *)
Theorem doubling_backoff_range (attempts : Z) :
  0 <= attempts < 2 ^ 1023 ->
  RetryStrategy_get_schedule_in
    (with_exponential_wait (PyInt 2) RetryStrategy_default) attempts
  = if attempts <=? 1023
    then Ok (Some (PyFloat (S754_finite false (Z.to_pos (2 ^ 52))
                              (attempts - 52))))
    else Raise OverflowError.
Proof.
  intros Ha. rewrite (exponential_int_delay 2 attempts Ha).
  assert (Hpos : 0 < 2 ^ attempts) by (apply Z.pow_pos_nonneg; lia).
  destruct (2 ^ attempts) as [|p|p] eqn:Hp; try lia.
  unfold float_of_int.
  rewrite (round_to_53_pow2 attempts p (proj1 Ha) (eq_sym Hp)).
  unfold emax, prec.
  destruct (Z.leb_spec attempts 1023) as [Hle | Hgt];
    destruct (Z.leb_spec (attempts - 52) (1024 - 53)); try lia; reflexivity.
Qed.

(** Attempt 1024 is the first that raises. *)
Lemma doubling_backoff_range_witness :
  RetryStrategy_get_schedule_in
    (with_exponential_wait (PyInt 2) RetryStrategy_default) 1024
  = Raise OverflowError.
Proof. apply (doubling_backoff_range 1024). lia. Defined.
